(** * Chrome MCP beta header: a shallow embedding and its properties

    The module under study (chrome-mcp-beta-header.ts and its integration
    file) keeps one module-level boolean, [chromeInChromeMcpUsed], and
    offers a prefix test on tool names, a setter, two readers, a pair of
    functions that save and restore the boolean through a plain object,
    and a helper that appends a marker to an array of header values.

    The embedding follows the TypeScript text function by function.  The
    module-level variable and the arrays the helper receives and returns
    live in an explicit store; a function of the module is a computation
    over that store that completes normally or throws. *)

From Stdlib Require Import Bool List String Ascii Arith ZArith Lia.
Import ListNotations.
Local Open Scope string_scope.
Local Open Scope list_scope.
Set Warnings "-register-all".

(** ** JavaScript values that can reach the module *)

Module Js.

(** The values a caller can hand to [restoreSessionState] at run time.
    An object is given by its own properties; where a key is listed
    twice the first binding is the property's value.  [Number] covers
    the integral numbers only, which is all the development inspects. *)
Inductive Value : Type :=
| Undefined
| Null
| Boolean (b : bool)
| Number (n : Z)
| Str (s : string)
| Object (fields : list (string * Value)).

Inductive Error : Type :=
| TypeError
| DanglingReference.

(** Outcome of evaluating a call. *)
Inductive Completion (A : Type) : Type :=
| Normal (a : A)
| Throw (e : Error).

Arguments Normal {A} a.
Arguments Throw {A} e.

(** Arrays have identity: a reference is an index into the store. *)
Definition Ref : Type := nat.

(** The store: the module-level [let chromeInChromeMcpUsed] and the
    arrays of strings allocated so far. *)
Record State : Type := mkState {
  chromeInChromeMcpUsed : bool;
  arrays : list (list string)
}.

(** Computations: state passing, with the store surviving a throw. *)
Definition M (A : Type) : Type := State -> Completion A * State.

Definition ret {A} (a : A) : M A := fun st => (Normal a, st).

Definition bind {A B} (m : M A) (k : A -> M B) : M B :=
  fun st =>
    match m st with
    | (Normal a, st') => k a st'
    | (Throw e, st') => (Throw e, st')
    end.

Definition throw {A} (e : Error) : M A := fun st => (Throw e, st).

Definition completion {A} (m : M A) (st : State) : Completion A := fst (m st).
Definition finalState {A} (m : M A) (st : State) : State := snd (m st).

(** Reading and writing the module-level variable. *)
Definition readUsed : M bool :=
  fun st => (Normal (chromeInChromeMcpUsed st), st).

Definition writeUsed (b : bool) : M unit :=
  fun st => (Normal tt, mkState b (arrays st)).

(** Reading an array's elements, and allocating a new array. *)
Definition readArray (r : Ref) : M (list string) :=
  fun st =>
    match nth_error (arrays st) r with
    | Some xs => (Normal xs, st)
    | None => (Throw DanglingReference, st)
    end.

Definition newArray (xs : list string) : M Ref :=
  fun st =>
    (Normal (List.length (arrays st)),
     mkState (chromeInChromeMcpUsed st) (arrays st ++ [xs])).

(** [o[key]] for a key that no prototype defines. *)
Fixpoint ownProperty (fields : list (string * Value)) (key : string) : Value :=
  match fields with
  | [] => Undefined
  | (k, v) :: rest => if String.eqb k key then v else ownProperty rest key
  end.

Definition getProperty (o : Value) (key : string) : M Value :=
  match o with
  | Undefined | Null => throw TypeError
  | Object fields => ret (ownProperty fields key)
  | Boolean _ | Number _ | Str _ => ret Undefined
  end.

(** [v === true]. *)
Definition strictEqualsTrue (v : Value) : bool :=
  match v with
  | Boolean true => true
  | _ => false
  end.

(** Truthiness of a [string | null]: [null] and the empty string are
    falsy. *)
Definition truthy (v : option string) : bool :=
  match v with
  | Some s => negb (String.eqb s "")
  | None => false
  end.

(** [s.startsWith(p)]. *)
Definition startsWith (s p : string) : bool := String.prefix p s.

(** [xs.includes(v)] on an array of strings. *)
Definition includes (xs : list string) (v : string) : bool :=
  existsb (String.eqb v) xs.

(** Calling [f] on each element in turn, stopping at the first throw. *)
Fixpoint forEach {A} (f : A -> M unit) (xs : list A) : M unit :=
  match xs with
  | [] => ret tt
  | x :: rest => bind (f x) (fun _ => forEach f rest)
  end.

End Js.

Import Js.

Declare Scope js_scope.
Delimit Scope js_scope with js.
Notation "x <- m ;; k" := (bind m (fun x => k))
  (at level 61, m at next level, right associativity) : js_scope.
Notation "m ;; k" := (bind m (fun _ => k))
  (at level 61, right associativity) : js_scope.
Local Open Scope js_scope.

(** ** chrome-mcp-beta-header.ts *)

Definition CHROME_IN_CHROME_MCP_BETA_HEADER : string := "browser-use-YYYYMMDD".

Definition CLAUDE_IN_CHROME_MCP_SERVER_NAME : string := "claude-in-chrome".

Definition CHROME_MCP_TOOL_PREFIX : string :=
  ("mcp__" ++ CLAUDE_IN_CHROME_MCP_SERVER_NAME ++ "__")%string.

Definition isChromeInChromeMcpTool (toolName : string) : bool :=
  startsWith toolName CHROME_MCP_TOOL_PREFIX.

Definition markChromeInChromeMcpToolUsed : M unit :=
  writeUsed true.

Definition hasChromeInChromeMcpBeenUsed : M bool :=
  readUsed.

Definition getChromeInChromeMcpBetaHeader : M (option string) :=
  used <- readUsed ;;
  if used then ret (Some CHROME_IN_CHROME_MCP_BETA_HEADER) else ret None.

Definition CHROME_MCP_SESSION_STATE_KEY : string := "chromeInChromeMcpUsed".

Definition getSessionState : M Value :=
  used <- readUsed ;;
  ret (Object [("chromeInChromeMcpUsed", Boolean used)]).

Definition restoreSessionState (state : Value) : M unit :=
  v <- getProperty state "chromeInChromeMcpUsed" ;;
  if strictEqualsTrue v then writeUsed true else ret tt.

Definition resetState : M unit :=
  writeUsed false.

(** ** chrome-mcp-beta-header-integration.ts *)

Definition onToolExecuted (toolName : string) : M unit :=
  if isChromeInChromeMcpTool toolName
  then markChromeInChromeMcpToolUsed
  else ret tt.

(** [chromeBetaHeader && !existingBetaHeaders.includes(chromeBetaHeader)]
    evaluates [includes] only for a truthy header; the spread in the
    return statement reads the argument again and allocates the result. *)
Definition addChromeMcpBetaHeaderIfNeeded (existingBetaHeaders : Ref) : M Ref :=
  chromeBetaHeader <- getChromeInChromeMcpBetaHeader ;;
  match chromeBetaHeader with
  | Some header =>
      if truthy (Some header) then
        elems <- readArray existingBetaHeaders ;;
        if negb (includes elems header) then
          spread <- readArray existingBetaHeaders ;;
          newArray (spread ++ [header])
        else ret existingBetaHeaders
      else ret existingBetaHeaders
  | None => ret existingBetaHeaders
  end.

(** The state of the module when it is loaded, before any array exists. *)
Definition initialState : State := mkState false [].

(** ** The operations as one type *)

(** The exported operations, named as the specification names them, with
    the argument of each call. *)
Inductive Operation : Type :=
| IsQualifyingTool (name : string)
| MarkUsed
| IsUsed
| GetMarkerValue
| ExportState
| ImportState (state : Value)
| Reset
| AppendMarkerIfNeeded (existing : Ref)
| OnToolExecuted (toolName : string).

(** Performing an operation for its effect on the store. *)
Definition perform (op : Operation) : M unit :=
  match op with
  | IsQualifyingTool name => _ <- ret (isChromeInChromeMcpTool name) ;; ret tt
  | MarkUsed => markChromeInChromeMcpToolUsed
  | IsUsed => _ <- hasChromeInChromeMcpBeenUsed ;; ret tt
  | GetMarkerValue => _ <- getChromeInChromeMcpBetaHeader ;; ret tt
  | ExportState => _ <- getSessionState ;; ret tt
  | ImportState state => restoreSessionState state
  | Reset => resetState
  | AppendMarkerIfNeeded existing => _ <- addChromeMcpBetaHeaderIfNeeded existing ;; ret tt
  | OnToolExecuted toolName => onToolExecuted toolName
  end.

Definition isReset (op : Operation) : bool :=
  match op with
  | Reset => true
  | _ => false
  end.

(** The operations of the component other than the three that assign the
    variable ([markUsed], [importState], [reset]). *)
Definition isReader (op : Operation) : bool :=
  match op with
  | IsQualifyingTool _ | IsUsed | GetMarkerValue | ExportState
  | AppendMarkerIfNeeded _ => true
  | MarkUsed | ImportState _ | Reset | OnToolExecuted _ => false
  end.

(** ** Programs used in the statements *)

(** The elements of the array a call returned, if it returned one. *)
Definition returnedElements (m : M Ref) (st : State) : option (list string) :=
  match m st with
  | (Normal r, st') => nth_error (arrays st') r
  | (Throw _, _) => None
  end.

(** [addChromeMcpBetaHeaderIfNeeded(xs)] with [xs] an array literal. *)
Definition addToLiteral (xs : list string) : M Ref :=
  r <- newArray xs ;;
  addChromeMcpBetaHeaderIfNeeded r.

(** [f(f(xs))]. *)
Definition addTwice (existingBetaHeaders : Ref) : M Ref :=
  once <- addChromeMcpBetaHeaderIfNeeded existingBetaHeaders ;;
  addChromeMcpBetaHeaderIfNeeded once.

(** [n] calls in a row, each on the array the previous one returned. *)
Fixpoint addRepeatedly (n : nat) (existingBetaHeaders : Ref) : M Ref :=
  match n with
  | O => ret existingBetaHeaders
  | S k =>
      next <- addChromeMcpBetaHeaderIfNeeded existingBetaHeaders ;;
      addRepeatedly k next
  end.

(** Save, reset, restore, then query. *)
Definition saveResetRestore : M bool :=
  saved <- getSessionState ;;
  resetState ;;
  restoreSessionState saved ;;
  hasChromeInChromeMcpBeenUsed.

(** The tool hook called for each name in turn, then the header built
    from an empty array literal. *)
Definition hooksThenHeaders (toolNames : list string) : M Ref :=
  forEach onToolExecuted toolNames ;;
  addToLiteral [].

(** Number of elements of [xs] equal to [v]. *)
Definition occurrences (v : string) (xs : list string) : nat :=
  count_occ string_dec xs v.

(** ** The rest of chrome-mcp-beta-header-integration.ts *)

Definition getChromeMcpSessionState : M Value :=
  getSessionState.

(** The property is read off the argument and a new one-property object
    is handed on. *)
Definition restoreChromeMcpSessionState (savedState : Value) : M unit :=
  used <- getProperty savedState "chromeInChromeMcpUsed" ;;
  restoreSessionState (Object [("chromeInChromeMcpUsed", used)]).

Definition handleChromeInChromeMcpToolUse
    (toolName : string) (_toolInput _toolResult : Value) : M unit :=
  if isChromeInChromeMcpTool toolName
  then markChromeInChromeMcpToolUsed
  else ret tt.

(** [xs.join(sep)] on an array of strings. *)
Definition join (xs : Ref) (sep : string) : M string :=
  elems <- readArray xs ;;
  ret (String.concat sep elems).

Definition buildApiRequestExample : M Value :=
  betaHeaders <- newArray [] ;;
  finalBetaHeaders <- addChromeMcpBetaHeaderIfNeeded betaHeaders ;;
  joined <- join finalBetaHeaders "," ;;
  ret (Object [("anthropic-version", Str "2024-06-01");
               ("anthropic-beta", Str joined)]).

(** ** Notions used in the further statements *)

(** A call of one of the two tool hooks. *)
Inductive HookCall : Type :=
| ViaOnToolExecuted (toolName : string)
| ViaPostToolUse (toolName : string) (toolInput toolResult : Value).

Definition hookToolName (c : HookCall) : string :=
  match c with
  | ViaOnToolExecuted toolName => toolName
  | ViaPostToolUse toolName _ _ => toolName
  end.

Definition runHook (c : HookCall) : M unit :=
  match c with
  | ViaOnToolExecuted toolName => onToolExecuted toolName
  | ViaPostToolUse toolName toolInput toolResult =>
      handleChromeInChromeMcpToolUse toolName toolInput toolResult
  end.

(** The calls that can take the variable from [false] to [true]. *)
Definition maySet (op : Operation) : bool :=
  match op with
  | MarkUsed => true
  | ImportState (Object fields) =>
      strictEqualsTrue (ownProperty fields "chromeInChromeMcpUsed")
  | OnToolExecuted toolName => isChromeInChromeMcpTool toolName
  | _ => false
  end.

(** Reset, restore from a session document, query. *)
Definition resumeFrom (document : Value) : M bool :=
  resetState ;;
  restoreChromeMcpSessionState document ;;
  hasChromeInChromeMcpBeenUsed.

(** The name of a tool of an MCP server, after the pattern of
    [CHROME_MCP_TOOL_PREFIX]. *)
Definition mcpToolName (server tool : string) : string :=
  ("mcp__" ++ server ++ "__" ++ tool)%string.

Fixpoint noUnderscore (s : string) : bool :=
  match s with
  | EmptyString => true
  | String c rest => negb (Ascii.eqb c "_") && noUnderscore rest
  end.

(** ** Basic facts about the run-time model *)

Lemma prefix_iff_append (p s : string) :
  String.prefix p s = true <-> exists suffix, s = (p ++ suffix)%string.
Proof.
  revert s. induction p as [|a p IH]; intros s.
  - split.
    + intros _. exists s. reflexivity.
    + intros _. destruct s; reflexivity.
  - destruct s as [|b s]; simpl.
    + split; [discriminate | intros [suffix H]; discriminate].
    + destruct (ascii_dec a b) as [->|Hab].
      * rewrite IH. split; intros [suffix H]; exists suffix.
        -- now rewrite H.
        -- now inversion H.
      * split; [discriminate|].
        intros [suffix H]. congruence.
Qed.

Lemma includes_iff_In (xs : list string) (v : string) :
  includes xs v = true <-> In v xs.
Proof.
  unfold includes. rewrite existsb_exists. split.
  - intros [x [Hin Heq]]. apply String.eqb_eq in Heq. now subst.
  - intros Hin. exists v. split; [assumption | apply String.eqb_refl].
Qed.

Lemma includes_false_iff (xs : list string) (v : string) :
  includes xs v = false <-> ~ In v xs.
Proof.
  rewrite <- includes_iff_In. destruct (includes xs v); split; intros H;
    congruence || (exfalso; now apply H) || discriminate.
Qed.

Lemma tool_prefix_value : CHROME_MCP_TOOL_PREFIX = "mcp__claude-in-chrome__".
Proof. reflexivity. Qed.

(** ** The prefix predicate *)

(** C4.  [isChromeInChromeMcpTool s] is [true] exactly when [s] is the
    prefix ["mcp__claude-in-chrome__"] followed by some suffix: every
    such concatenation (the empty suffix included) gives [true], every
    string that is no such concatenation gives [false], and so does the
    empty string.  The function is total: it has a boolean value at every
    string. *)
Theorem isChromeInChromeMcpTool_iff_prefix :
  CHROME_MCP_TOOL_PREFIX = "mcp__claude-in-chrome__" /\
  (forall s : string,
      isChromeInChromeMcpTool s = true <->
      exists suffix, s = ("mcp__claude-in-chrome__" ++ suffix)%string) /\
  (forall suffix : string,
      isChromeInChromeMcpTool ("mcp__claude-in-chrome__" ++ suffix)%string = true) /\
  isChromeInChromeMcpTool "mcp__claude-in-chrome__" = true /\
  (forall s : string,
      (forall suffix, s <> ("mcp__claude-in-chrome__" ++ suffix)%string) ->
      isChromeInChromeMcpTool s = false) /\
  isChromeInChromeMcpTool "" = false /\
  (forall s : string,
      isChromeInChromeMcpTool s = true \/ isChromeInChromeMcpTool s = false).
Proof.
  assert (Hiff : forall s : string,
             isChromeInChromeMcpTool s = true <->
             exists suffix, s = ("mcp__claude-in-chrome__" ++ suffix)%string).
  { intros s. unfold isChromeInChromeMcpTool, startsWith.
    rewrite tool_prefix_value. apply prefix_iff_append. }
  repeat split.
  - apply Hiff.
  - apply Hiff.
  - intros suffix. apply Hiff. now exists suffix.
  - intros s Hno. destruct (isChromeInChromeMcpTool s) eqn:E; [|reflexivity].
    apply Hiff in E. destruct E as [suffix E]. now elim (Hno suffix).
  - intros s. destruct (isChromeInChromeMcpTool s); [now left | now right].
Qed.

(** Two strings on either side of the predicate, run through the
    statement above. *)
Lemma isChromeInChromeMcpTool_iff_prefix_witness :
  isChromeInChromeMcpTool "mcp__claude-in-chrome__navigate" = true /\
  isChromeInChromeMcpTool "mcp__filesystem__read" = false.
Proof.
  destruct isChromeInChromeMcpTool_iff_prefix as (_ & _ & Hyes & _ & Hno & _).
  split.
  - exact (Hyes "navigate").
  - apply Hno. intros suffix H. discriminate H.
Defined.

(** ** The marker value *)

Lemma getChromeInChromeMcpBetaHeader_run (st : State) :
  getChromeInChromeMcpBetaHeader st =
  (Normal (if chromeInChromeMcpUsed st
           then Some CHROME_IN_CHROME_MCP_BETA_HEADER
           else None), st).
Proof.
  destruct st as [used arrs]. destruct used; reflexivity.
Qed.

(** C5.  [getChromeInChromeMcpBetaHeader] returns [null] when the
    variable is [false] and the constant ["browser-use-YYYYMMDD"], which
    is not [null], when it is [true]; the store is left as it was; in the
    initial state the result is [null]. *)
Theorem getChromeInChromeMcpBetaHeader_spec :
  (forall st : State,
      getChromeInChromeMcpBetaHeader st =
      (Normal (if chromeInChromeMcpUsed st
               then Some "browser-use-YYYYMMDD"
               else None), st)) /\
  completion getChromeInChromeMcpBetaHeader initialState = Normal None /\
  Some CHROME_IN_CHROME_MCP_BETA_HEADER <> None /\
  CHROME_IN_CHROME_MCP_BETA_HEADER = "browser-use-YYYYMMDD".
Proof.
  repeat split.
  - intros st. apply getChromeInChromeMcpBetaHeader_run.
  - discriminate.
Qed.

(** ** The header helper *)

Section AddHeader.

Variable st : State.
Variable r : Ref.

(** With the variable unset nothing is read and the argument comes back. *)
Lemma add_unused :
  chromeInChromeMcpUsed st = false ->
  addChromeMcpBetaHeaderIfNeeded r st = (Normal r, st).
Proof.
  destruct st as [used arrs]. simpl. intros ->. reflexivity.
Qed.

(** With the variable set and the marker among the elements, the argument
    comes back and nothing is allocated. *)
Lemma add_present (xs : list string) :
  chromeInChromeMcpUsed st = true ->
  nth_error (arrays st) r = Some xs ->
  includes xs CHROME_IN_CHROME_MCP_BETA_HEADER = true ->
  addChromeMcpBetaHeaderIfNeeded r st = (Normal r, st).
Proof.
  destruct st as [used arrs]. simpl. intros -> Hr Hin.
  unfold addChromeMcpBetaHeaderIfNeeded, getChromeInChromeMcpBetaHeader,
    bind, readUsed, ret, readArray. simpl.
  rewrite Hr, Hin. reflexivity.
Qed.

(** With the variable set and the marker not among the elements, a new
    array is allocated at the end of the store. *)
Lemma add_absent (xs : list string) :
  chromeInChromeMcpUsed st = true ->
  nth_error (arrays st) r = Some xs ->
  includes xs CHROME_IN_CHROME_MCP_BETA_HEADER = false ->
  addChromeMcpBetaHeaderIfNeeded r st =
  (Normal (List.length (arrays st)),
   mkState true (arrays st ++ [xs ++ [CHROME_IN_CHROME_MCP_BETA_HEADER]])).
Proof.
  destruct st as [used arrs]. simpl. intros -> Hr Hin.
  unfold addChromeMcpBetaHeaderIfNeeded, getChromeInChromeMcpBetaHeader,
    bind, readUsed, ret, readArray, newArray. simpl.
  rewrite Hr, Hin. simpl. rewrite Hr. reflexivity.
Qed.

End AddHeader.

Lemma nth_error_snoc {A} (l : list A) (x : A) :
  nth_error (l ++ [x]) (List.length l) = Some x.
Proof.
  rewrite nth_error_app2 by apply Nat.le_refl.
  now rewrite Nat.sub_diag.
Qed.

(** The elements of the returned array, in one equation. *)
Lemma returnedElements_add (st : State) (r : Ref) (xs : list string) :
  nth_error (arrays st) r = Some xs ->
  returnedElements (addChromeMcpBetaHeaderIfNeeded r) st =
  Some (if chromeInChromeMcpUsed st
        then if includes xs CHROME_IN_CHROME_MCP_BETA_HEADER
             then xs
             else xs ++ [CHROME_IN_CHROME_MCP_BETA_HEADER]
        else xs).
Proof.
  intros Hr. unfold returnedElements.
  destruct (chromeInChromeMcpUsed st) eqn:Hu.
  - destruct (includes xs CHROME_IN_CHROME_MCP_BETA_HEADER) eqn:Hin.
    + now rewrite (add_present st r xs Hu Hr Hin).
    + rewrite (add_absent st r xs Hu Hr Hin). simpl. apply nth_error_snoc.
  - now rewrite (add_unused st r Hu).
Qed.

(** C1.  Let [r] refer to an array with elements [xs].  If the variable
    is [false], the array returned by [addChromeMcpBetaHeaderIfNeeded]
    has elements [xs]; if it is [true] and the marker occurs in [xs], the
    returned array has elements [xs]; if it is [true] and the marker does
    not occur in [xs], the returned array has elements [xs] followed by
    the marker as last element.  In each case the call completes
    normally and the returned elements start with [xs], in order. *)
Theorem addChromeMcpBetaHeaderIfNeeded_spec
    (st : State) (r : Ref) (xs : list string) :
  nth_error (arrays st) r = Some xs ->
  (chromeInChromeMcpUsed st = false ->
   returnedElements (addChromeMcpBetaHeaderIfNeeded r) st = Some xs) /\
  (chromeInChromeMcpUsed st = true ->
   In CHROME_IN_CHROME_MCP_BETA_HEADER xs ->
   returnedElements (addChromeMcpBetaHeaderIfNeeded r) st = Some xs) /\
  (chromeInChromeMcpUsed st = true ->
   ~ In CHROME_IN_CHROME_MCP_BETA_HEADER xs ->
   returnedElements (addChromeMcpBetaHeaderIfNeeded r) st =
   Some (xs ++ [CHROME_IN_CHROME_MCP_BETA_HEADER])) /\
  (exists (r' : Ref) (rest : list string),
      completion (addChromeMcpBetaHeaderIfNeeded r) st = Normal r' /\
      returnedElements (addChromeMcpBetaHeaderIfNeeded r) st = Some (xs ++ rest)).
Proof.
  intros Hr. pose proof (returnedElements_add st r xs Hr) as Hel.
  repeat split.
  - intros Hu. now rewrite Hel, Hu.
  - intros Hu Hin. apply includes_iff_In in Hin. now rewrite Hel, Hu, Hin.
  - intros Hu Hin. apply includes_false_iff in Hin. now rewrite Hel, Hu, Hin.
  - unfold completion. rewrite Hel.
    destruct (chromeInChromeMcpUsed st) eqn:Hu.
    + destruct (includes xs CHROME_IN_CHROME_MCP_BETA_HEADER) eqn:Hin.
      * exists r, []. rewrite (add_present st r xs Hu Hr Hin), app_nil_r. auto.
      * exists (List.length (arrays st)), [CHROME_IN_CHROME_MCP_BETA_HEADER].
        rewrite (add_absent st r xs Hu Hr Hin). auto.
    + exists r, []. rewrite (add_unused st r Hu), app_nil_r. auto.
Qed.

(** The three cases of the statement above on the arrays of the unit
    tests. *)
Lemma addChromeMcpBetaHeaderIfNeeded_spec_witness :
  returnedElements (addChromeMcpBetaHeaderIfNeeded 0)
    (mkState false [["beta-1"; "beta-2"]]) = Some ["beta-1"; "beta-2"] /\
  returnedElements (addChromeMcpBetaHeaderIfNeeded 0)
    (mkState true [["beta-1"; "browser-use-YYYYMMDD"]]) =
  Some ["beta-1"; "browser-use-YYYYMMDD"] /\
  returnedElements (addChromeMcpBetaHeaderIfNeeded 0)
    (mkState true [["beta-1"; "beta-2"]]) =
  Some ["beta-1"; "beta-2"; "browser-use-YYYYMMDD"].
Proof.
  split; [|split].
  - apply (proj1 (addChromeMcpBetaHeaderIfNeeded_spec
             (mkState false [["beta-1"; "beta-2"]]) 0 ["beta-1"; "beta-2"]
             eq_refl)).
    reflexivity.
  - apply (proj1 (proj2 (addChromeMcpBetaHeaderIfNeeded_spec
             (mkState true [["beta-1"; "browser-use-YYYYMMDD"]]) 0
             ["beta-1"; "browser-use-YYYYMMDD"] eq_refl))).
    + reflexivity.
    + simpl. right. left. reflexivity.
  - apply (proj1 (proj2 (proj2 (addChromeMcpBetaHeaderIfNeeded_spec
             (mkState true [["beta-1"; "beta-2"]]) 0 ["beta-1"; "beta-2"]
             eq_refl)))).
    + reflexivity.
    + simpl. intros [H | [H | []]]; discriminate H.
Defined.

(** What one call does to the store, for use in sequences of calls: the
    call completes normally, the variable keeps its value, the returned
    reference is live, and every array that existed keeps its elements. *)
Lemma add_step (st : State) (r : Ref) (xs : list string) :
  nth_error (arrays st) r = Some xs ->
  exists (r' : Ref) (st' : State),
    addChromeMcpBetaHeaderIfNeeded r st = (Normal r', st') /\
    chromeInChromeMcpUsed st' = chromeInChromeMcpUsed st /\
    nth_error (arrays st') r' =
    Some (if chromeInChromeMcpUsed st
          then if includes xs CHROME_IN_CHROME_MCP_BETA_HEADER
               then xs
               else xs ++ [CHROME_IN_CHROME_MCP_BETA_HEADER]
          else xs) /\
    (forall l zs, nth_error (arrays st) l = Some zs ->
                  nth_error (arrays st') l = Some zs).
Proof.
  intros Hr. destruct (chromeInChromeMcpUsed st) eqn:Hu.
  - destruct (includes xs CHROME_IN_CHROME_MCP_BETA_HEADER) eqn:Hin.
    + exists r, st. rewrite (add_present st r xs Hu Hr Hin). auto.
    + eexists _, _. rewrite (add_absent st r xs Hu Hr Hin).
      split; [reflexivity|]. simpl. repeat split.
      * apply nth_error_snoc.
      * intros l zs Hl. rewrite nth_error_app1; [assumption|].
        apply nth_error_Some. congruence.
  - exists r, st. rewrite (add_unused st r Hu). auto.
Qed.

Lemma returnedElements_bind {A} (m : M A) (k : A -> M Ref)
    (st st' : State) (a : A) :
  m st = (Normal a, st') ->
  returnedElements (x <- m ;; k x) st = returnedElements (k a) st'.
Proof.
  intros Hm. unfold returnedElements, bind. now rewrite Hm.
Qed.

Lemma includes_snoc (xs : list string) (v : string) :
  includes (xs ++ [v]) v = true.
Proof.
  apply includes_iff_In, in_or_app. right. now left.
Qed.

(** Applying the helper to its own result changes nothing, whatever the
    value of the variable. *)
Lemma addTwice_elements (st : State) (r : Ref) (xs : list string) :
  nth_error (arrays st) r = Some xs ->
  returnedElements (addTwice r) st =
  returnedElements (addChromeMcpBetaHeaderIfNeeded r) st.
Proof.
  intros Hr.
  destruct (add_step st r xs Hr) as (r' & st' & Hrun & Hu & Hr' & _).
  unfold addTwice. rewrite (returnedElements_bind _ _ st st' r' Hrun).
  rewrite (returnedElements_add st' r' _ Hr'), (returnedElements_add st r xs Hr).
  rewrite Hu. destruct (chromeInChromeMcpUsed st); [|reflexivity].
  destruct (includes xs CHROME_IN_CHROME_MCP_BETA_HEADER) eqn:Hin.
  - now rewrite Hin.
  - now rewrite includes_snoc.
Qed.

(** C7.  Once the variable is [true], applying
    [addChromeMcpBetaHeaderIfNeeded] to the array it returned gives an
    array with the same elements as applying it once: both calls
    complete and [f(f(xs))] equals [f(xs)] as lists. *)
Theorem addChromeMcpBetaHeaderIfNeeded_idempotent
    (st : State) (r : Ref) (xs : list string) :
  chromeInChromeMcpUsed st = true ->
  nth_error (arrays st) r = Some xs ->
  exists ys : list string,
    returnedElements (addChromeMcpBetaHeaderIfNeeded r) st = Some ys /\
    returnedElements (addTwice r) st = Some ys.
Proof.
  intros _ Hr. eexists. rewrite (addTwice_elements st r xs Hr).
  split; apply (returnedElements_add st r xs Hr).
Qed.

(** The statement above on the array [["existing-beta"]]. *)
Lemma addChromeMcpBetaHeaderIfNeeded_idempotent_witness :
  exists ys : list string,
    returnedElements (addChromeMcpBetaHeaderIfNeeded 0)
      (mkState true [["existing-beta"]]) = Some ys /\
    returnedElements (addTwice 0)
      (mkState true [["existing-beta"]]) = Some ys.
Proof.
  apply (addChromeMcpBetaHeaderIfNeeded_idempotent
           (mkState true [["existing-beta"]]) 0 ["existing-beta"]).
  - reflexivity.
  - reflexivity.
Defined.

(** ** Occurrences of the marker *)

Lemma occurrences_snoc_absent (xs : list string) (v : string) :
  includes xs v = false -> occurrences v (xs ++ [v]) = 1.
Proof.
  intros Hin. apply includes_false_iff in Hin.
  unfold occurrences. rewrite count_occ_app.
  apply (count_occ_not_In string_dec) in Hin. rewrite Hin. simpl.
  destruct (string_dec v v); [reflexivity | contradiction].
Qed.

Lemma occurrences_present (xs : list string) (v : string) :
  includes xs v = true -> 1 <= occurrences v xs.
Proof.
  intros Hin. apply includes_iff_In in Hin.
  apply (count_occ_In string_dec) in Hin. unfold occurrences. lia.
Qed.

Lemma addRepeatedly_bounded (n : nat) :
  forall (st : State) (r : Ref) (xs : list string),
    nth_error (arrays st) r = Some xs ->
    occurrences CHROME_IN_CHROME_MCP_BETA_HEADER xs <= 1 ->
    exists ys : list string,
      returnedElements (addRepeatedly n r) st = Some ys /\
      occurrences CHROME_IN_CHROME_MCP_BETA_HEADER ys <= 1.
Proof.
  induction n as [|n IH]; intros st r xs Hr Hocc.
  - exists xs. unfold returnedElements. simpl. auto.
  - destruct (add_step st r xs Hr) as (r' & st' & Hrun & _ & Hr' & _).
    simpl. rewrite (returnedElements_bind _ _ st st' r' Hrun).
    apply (IH st' r' _ Hr').
    destruct (chromeInChromeMcpUsed st); [|assumption].
    destruct (includes xs CHROME_IN_CHROME_MCP_BETA_HEADER) eqn:Hin;
      [assumption|].
    now rewrite (occurrences_snoc_absent _ _ Hin).
Qed.

(** C10.  If the argument array holds the marker at most once, so does
    the array [addChromeMcpBetaHeaderIfNeeded] returns, and it holds the
    marker exactly once when the variable is [true]; the bound survives
    any number of calls chained on one another's results. *)
Theorem marker_occurs_at_most_once
    (st : State) (r : Ref) (xs : list string) :
  nth_error (arrays st) r = Some xs ->
  occurrences CHROME_IN_CHROME_MCP_BETA_HEADER xs <= 1 ->
  (exists ys : list string,
      returnedElements (addChromeMcpBetaHeaderIfNeeded r) st = Some ys /\
      occurrences CHROME_IN_CHROME_MCP_BETA_HEADER ys <= 1 /\
      (chromeInChromeMcpUsed st = true ->
       occurrences CHROME_IN_CHROME_MCP_BETA_HEADER ys = 1)) /\
  (forall n : nat,
      exists ys : list string,
        returnedElements (addRepeatedly n r) st = Some ys /\
        occurrences CHROME_IN_CHROME_MCP_BETA_HEADER ys <= 1).
Proof.
  intros Hr Hocc. split.
  - eexists. split; [apply (returnedElements_add st r xs Hr)|].
    destruct (chromeInChromeMcpUsed st).
    + destruct (includes xs CHROME_IN_CHROME_MCP_BETA_HEADER) eqn:Hin.
      * pose proof (occurrences_present _ _ Hin). split; [assumption | lia].
      * rewrite (occurrences_snoc_absent _ _ Hin). split; [lia | reflexivity].
    + split; [assumption | discriminate].
  - intros n. now apply (addRepeatedly_bounded n st r xs).
Qed.

(** The statement above on an array that already holds the marker. *)
Lemma marker_occurs_at_most_once_witness :
  exists ys : list string,
    returnedElements (addChromeMcpBetaHeaderIfNeeded 0)
      (mkState true [["browser-use-YYYYMMDD"; "beta-1"]]) = Some ys /\
    occurrences CHROME_IN_CHROME_MCP_BETA_HEADER ys <= 1 /\
    (true = true -> occurrences CHROME_IN_CHROME_MCP_BETA_HEADER ys = 1).
Proof.
  apply (marker_occurs_at_most_once
           (mkState true [["browser-use-YYYYMMDD"; "beta-1"]]) 0
           ["browser-use-YYYYMMDD"; "beta-1"]).
  - reflexivity.
  - vm_compute. lia.
Defined.

(** ** Restoring saved state *)

Lemma state_eta (st : State) :
  mkState (chromeInChromeMcpUsed st) (arrays st) = st.
Proof. now destruct st. Qed.

(** On an object argument the call is an assignment of the disjunction of
    the variable and the test [state.chromeInChromeMcpUsed === true]. *)
Lemma restoreSessionState_object (fields : list (string * Value)) (st : State) :
  restoreSessionState (Object fields) st =
  (Normal tt,
   mkState (chromeInChromeMcpUsed st ||
            strictEqualsTrue (ownProperty fields "chromeInChromeMcpUsed"))
           (arrays st)).
Proof.
  unfold restoreSessionState, getProperty, bind, ret. 
  destruct (strictEqualsTrue _); simpl.
  - unfold writeUsed. now rewrite orb_true_r.
  - now rewrite orb_false_r, state_eta.
Qed.

Lemma strictEqualsTrue_iff (v : Value) :
  strictEqualsTrue v = true <-> v = Boolean true.
Proof.
  split.
  - destruct v as [| |[|]| | |]; simpl; intros H; congruence.
  - intros ->. reflexivity.
Qed.

(** C3.  For every object [state], [restoreSessionState state] completes
    normally.  If the property [chromeInChromeMcpUsed] of [state] is the
    boolean [true], the variable is [true] afterwards; for every other
    value of the property ([false], [undefined], an absent property, a
    value that is not a boolean) the store is exactly as before.  In
    particular restoring [{chromeInChromeMcpUsed: false}] when the
    variable is [true] leaves it [true]. *)
Theorem restoreSessionState_or_merge :
  (forall (fields : list (string * Value)) (st : State),
      completion (restoreSessionState (Object fields)) st = Normal tt) /\
  (forall (fields : list (string * Value)) (st : State),
      ownProperty fields "chromeInChromeMcpUsed" = Boolean true ->
      finalState (restoreSessionState (Object fields)) st =
      mkState true (arrays st)) /\
  (forall (fields : list (string * Value)) (st : State),
      ownProperty fields "chromeInChromeMcpUsed" <> Boolean true ->
      finalState (restoreSessionState (Object fields)) st = st) /\
  (forall (fields : list (string * Value)) (st : State),
      chromeInChromeMcpUsed
        (finalState (restoreSessionState (Object fields)) st) =
      chromeInChromeMcpUsed st ||
      strictEqualsTrue (ownProperty fields "chromeInChromeMcpUsed")) /\
  (forall st : State,
      chromeInChromeMcpUsed st = true ->
      chromeInChromeMcpUsed
        (finalState
           (restoreSessionState
              (Object [("chromeInChromeMcpUsed", Boolean false)])) st) = true).
Proof.
  unfold completion, finalState. repeat apply conj.
  - intros fields st. now rewrite restoreSessionState_object.
  - intros fields st Hp. rewrite restoreSessionState_object, Hp. simpl.
    now rewrite orb_true_r.
  - intros fields st Hp. rewrite restoreSessionState_object.
    destruct (strictEqualsTrue _) eqn:E.
    + apply strictEqualsTrue_iff in E. contradiction.
    + simpl. now rewrite orb_false_r, state_eta.
  - intros fields st. now rewrite restoreSessionState_object.
  - intros st Hu. rewrite restoreSessionState_object. simpl.
    now rewrite orb_false_r.
Qed.

(** The statement above on the records of the unit tests and on records
    whose property is not a boolean. *)
Lemma restoreSessionState_or_merge_witness :
  finalState (restoreSessionState
                (Object [("chromeInChromeMcpUsed", Boolean true)]))
             initialState = mkState true [] /\
  finalState (restoreSessionState (Object [])) (mkState true []) =
  mkState true [] /\
  finalState (restoreSessionState
                (Object [("chromeInChromeMcpUsed", Str "true")]))
             initialState = initialState /\
  finalState (restoreSessionState
                (Object [("chromeInChromeMcpUsed", Number 1)]))
             initialState = initialState.
Proof.
  destruct restoreSessionState_or_merge as (_ & Hset & Hkeep & _).
  repeat apply conj.
  - apply (Hset [("chromeInChromeMcpUsed", Boolean true)] initialState).
    reflexivity.
  - apply (Hkeep [] (mkState true [])). discriminate.
  - apply (Hkeep [("chromeInChromeMcpUsed", Str "true")] initialState).
    discriminate.
  - apply (Hkeep [("chromeInChromeMcpUsed", Number 1)] initialState).
    discriminate.
Defined.

(** ** Saving and restoring *)

(** C6.  For every value [b] of the variable: saving the state, resetting
    the variable, restoring the saved record and then querying returns
    [b]. *)
Theorem save_restore_round_trip :
  forall (b : bool) (arrs : list (list string)),
    completion saveResetRestore (mkState b arrs) = Normal b /\
    finalState saveResetRestore (mkState b arrs) = mkState b arrs.
Proof.
  intros [|] arrs; split; reflexivity.
Qed.

(** ** The tool hook *)

Lemma onToolExecuted_run (toolName : string) (st : State) :
  onToolExecuted toolName st =
  (Normal tt,
   mkState (chromeInChromeMcpUsed st || isChromeInChromeMcpTool toolName)
           (arrays st)).
Proof.
  unfold onToolExecuted.
  destruct (isChromeInChromeMcpTool toolName).
  - now rewrite orb_true_r.
  - unfold ret. now rewrite orb_false_r, state_eta.
Qed.

Lemma forEach_onToolExecuted (toolNames : list string) :
  forall st : State,
    forEach onToolExecuted toolNames st =
    (Normal tt,
     mkState (chromeInChromeMcpUsed st ||
              existsb isChromeInChromeMcpTool toolNames)
             (arrays st)).
Proof.
  induction toolNames as [|n ns IH]; intros st; simpl.
  - unfold ret. now rewrite orb_false_r, state_eta.
  - unfold bind. rewrite onToolExecuted_run, IH. simpl.
    now rewrite orb_assoc.
Qed.

Lemma addToLiteral_empty_used (st : State) :
  chromeInChromeMcpUsed st = true ->
  returnedElements (addToLiteral []) st =
  Some [CHROME_IN_CHROME_MCP_BETA_HEADER].
Proof.
  intros Hu. unfold addToLiteral.
  rewrite (returnedElements_bind (newArray []) _ st
             (mkState (chromeInChromeMcpUsed st) (arrays st ++ [[]]))
             (List.length (arrays st)) eq_refl).
  rewrite (returnedElements_add
             (mkState (chromeInChromeMcpUsed st) (arrays st ++ [[]]))
             (List.length (arrays st)) [] (nth_error_snoc _ _)).
  simpl. now rewrite Hu.
Qed.

(** C8.  [onToolExecuted n] completes normally; it sets the variable to
    [true] when [isChromeInChromeMcpTool n] holds and leaves the store as
    it was otherwise.  After the hook has run on each name of a non-empty
    list of qualifying names, in any state, building the headers from an
    empty array gives an array that holds the marker exactly once.  For
    an arbitrary list of names the result is the one-element array when
    the variable was [true] or some name qualifies, and empty otherwise,
    so the marker never occurs twice. *)
Theorem onToolExecuted_spec :
  (forall (n : string) (st : State),
      onToolExecuted n st =
      (Normal tt,
       if isChromeInChromeMcpTool n then mkState true (arrays st) else st)) /\
  (forall (toolNames : list string) (st : State),
      toolNames <> [] ->
      Forall (fun n => isChromeInChromeMcpTool n = true) toolNames ->
      exists ys : list string,
        returnedElements (hooksThenHeaders toolNames) st = Some ys /\
        ys = [CHROME_IN_CHROME_MCP_BETA_HEADER] /\
        occurrences CHROME_IN_CHROME_MCP_BETA_HEADER ys = 1) /\
  (forall (toolNames : list string) (st : State),
      returnedElements (hooksThenHeaders toolNames) st =
      Some (if chromeInChromeMcpUsed st ||
               existsb isChromeInChromeMcpTool toolNames
            then [CHROME_IN_CHROME_MCP_BETA_HEADER]
            else [])).
Proof.
  repeat apply conj.
  - intros n st. unfold onToolExecuted.
    destruct (isChromeInChromeMcpTool n); reflexivity.
  - intros ns st Hne Hall. eexists. split; [|split; reflexivity].
    unfold hooksThenHeaders.
    rewrite (returnedElements_bind _ _ st _ tt (forEach_onToolExecuted ns st)).
    apply addToLiteral_empty_used. simpl.
    destruct ns as [|n ns]; [contradiction|].
    inversion Hall as [|? ? Hn _]; subst. simpl. rewrite Hn.
    apply orb_true_r.
  - intros ns st. unfold hooksThenHeaders.
    rewrite (returnedElements_bind _ _ st _ tt (forEach_onToolExecuted ns st)).
    destruct (chromeInChromeMcpUsed st || existsb isChromeInChromeMcpTool ns)
      eqn:Hu.
    + now apply addToLiteral_empty_used.
    + unfold addToLiteral.
      rewrite (returnedElements_bind (newArray []) _ _ _ _ eq_refl).
      unfold returnedElements. rewrite add_unused by reflexivity.
      simpl. apply nth_error_snoc.
Qed.

(** The four hook calls of the end-to-end test, from the initial state. *)
Lemma onToolExecuted_spec_witness :
  returnedElements
    (hooksThenHeaders ["mcp__claude-in-chrome__navigate";
                       "mcp__claude-in-chrome__click";
                       "mcp__claude-in-chrome__read_page";
                       "mcp__claude-in-chrome__computer"]) initialState =
  Some ["browser-use-YYYYMMDD"].
Proof.
  destruct (proj1 (proj2 onToolExecuted_spec)
              ["mcp__claude-in-chrome__navigate";
               "mcp__claude-in-chrome__click";
               "mcp__claude-in-chrome__read_page";
               "mcp__claude-in-chrome__computer"] initialState)
    as (ys & Hrun & Hys & _).
  - discriminate.
  - repeat constructor.
  - rewrite Hrun, Hys. reflexivity.
Defined.

(** ** Which operations assign the variable *)

(** A reference outside the store makes the helper throw at its first
    read, with the store as it was; no caller can produce one. *)
Lemma add_dangling (st : State) (r : Ref) :
  chromeInChromeMcpUsed st = true ->
  nth_error (arrays st) r = None ->
  addChromeMcpBetaHeaderIfNeeded r st = (Throw DanglingReference, st).
Proof.
  destruct st as [used arrs]. simpl. intros -> Hr.
  unfold addChromeMcpBetaHeaderIfNeeded, getChromeInChromeMcpBetaHeader,
    bind, readUsed, ret, readArray. simpl.
  now rewrite Hr.
Qed.

(** The helper never assigns the variable and never touches an array
    that exists. *)
Lemma add_frame (st : State) (r : Ref) :
  chromeInChromeMcpUsed (finalState (addChromeMcpBetaHeaderIfNeeded r) st) =
  chromeInChromeMcpUsed st /\
  (forall l zs, nth_error (arrays st) l = Some zs ->
                nth_error
                  (arrays (finalState (addChromeMcpBetaHeaderIfNeeded r) st)) l =
                Some zs).
Proof.
  unfold finalState. destruct (nth_error (arrays st) r) as [xs|] eqn:Hr.
  - destruct (add_step st r xs Hr) as (r' & st' & Hrun & Hu & _ & Hold).
    rewrite Hrun. auto.
  - destruct (chromeInChromeMcpUsed st) eqn:Hu.
    + rewrite (add_dangling st r Hu Hr). auto.
    + rewrite (add_unused st r Hu). auto.
Qed.

Lemma perform_bind_ret {A} (m : M A) (st : State) :
  finalState (_ <- m ;; ret tt) st = finalState m st.
Proof.
  unfold finalState, bind, ret. destruct (m st) as [[a|e] st']; reflexivity.
Qed.

Lemma restoreSessionState_keeps_true (state : Value) (st : State) :
  chromeInChromeMcpUsed st = true ->
  chromeInChromeMcpUsed (finalState (restoreSessionState state) st) = true.
Proof.
  intros Hu. unfold finalState.
  destruct state as [| |b|n|s|fields];
    try (simpl; exact Hu).
  rewrite restoreSessionState_object. simpl. now rewrite Hu.
Qed.

(** C2.  In a state where the variable is [true], every operation other
    than [reset], with any argument, leaves it [true], whether the call
    completes normally or throws.  In particular [restoreSessionState]
    never takes the variable from [true] to [false], while it does take
    it from [false] to [true] on a record whose property is [true]. *)
Theorem used_is_monotone (op : Operation) (st : State) :
  isReset op = false ->
  chromeInChromeMcpUsed st = true ->
  chromeInChromeMcpUsed (finalState (perform op) st) = true /\
  (forall state : Value,
      chromeInChromeMcpUsed (finalState (restoreSessionState state) st) = true) /\
  chromeInChromeMcpUsed
    (finalState
       (restoreSessionState (Object [("chromeInChromeMcpUsed", Boolean true)]))
       (mkState false (arrays st))) = true.
Proof.
  intros Hop Hu. repeat apply conj.
  - destruct op as [name| | | | |state| |existing|toolName];
      try discriminate Hop; simpl perform;
      rewrite ?perform_bind_ret.
    + exact Hu.
    + reflexivity.
    + exact Hu.
    + unfold finalState. now rewrite getChromeInChromeMcpBetaHeader_run.
    + exact Hu.
    + now apply restoreSessionState_keeps_true.
    + now rewrite (proj1 (add_frame st existing)).
    + unfold finalState. rewrite onToolExecuted_run. simpl. now rewrite Hu.
  - intros state. now apply restoreSessionState_keeps_true.
  - reflexivity.
Qed.

(** Restoring [{chromeInChromeMcpUsed: false}], and restoring [null], in
    a state where the variable is [true]. *)
Lemma used_is_monotone_witness :
  chromeInChromeMcpUsed
    (finalState
       (perform (ImportState (Object [("chromeInChromeMcpUsed", Boolean false)])))
       (mkState true [])) = true /\
  chromeInChromeMcpUsed
    (finalState (perform (ImportState Null)) (mkState true [])) = true.
Proof.
  split.
  - apply (used_is_monotone
             (ImportState (Object [("chromeInChromeMcpUsed", Boolean false)]))
             (mkState true [])); reflexivity.
  - apply (used_is_monotone (ImportState Null) (mkState true [])); reflexivity.
Defined.

(** C9.  Each of [isChromeInChromeMcpTool], [hasChromeInChromeMcpBeenUsed],
    [getChromeInChromeMcpBetaHeader], [getSessionState] and
    [addChromeMcpBetaHeaderIfNeeded] leaves the variable as it was, in
    every state, and leaves every existing array, the argument of
    [addChromeMcpBetaHeaderIfNeeded] included, with the elements it had.
    The first four leave the whole store as it was.  Each of them
    completes normally (the helper: on a reference to an array). *)
Theorem readers_leave_store (op : Operation) (st : State) :
  isReader op = true ->
  chromeInChromeMcpUsed (finalState (perform op) st) =
  chromeInChromeMcpUsed st /\
  (forall (l : Ref) (zs : list string),
      nth_error (arrays st) l = Some zs ->
      nth_error (arrays (finalState (perform op) st)) l = Some zs) /\
  ((forall r, op <> AppendMarkerIfNeeded r) ->
   finalState (perform op) st = st) /\
  ((forall r, op = AppendMarkerIfNeeded r -> r < List.length (arrays st)) ->
   completion (perform op) st = Normal tt).
Proof.
  intros Hop.
  destruct op as [name| | | | |state| |existing|toolName];
    try discriminate Hop; simpl perform.
  - repeat apply conj; auto.
  - repeat apply conj; auto.
  - assert (Hrun : (_ <- getChromeInChromeMcpBetaHeader ;; ret tt) st =
                   (Normal tt, st)).
    { unfold bind. now rewrite getChromeInChromeMcpBetaHeader_run. }
    unfold finalState, completion. rewrite Hrun. repeat apply conj; auto.
  - repeat apply conj; auto.
  - rewrite perform_bind_ret.
    destruct (add_frame st existing) as [Hu Hold].
    repeat apply conj; auto.
    + intros Hne. now elim (Hne existing).
    + intros Hlive. specialize (Hlive existing eq_refl).
      apply nth_error_Some in Hlive.
      destruct (nth_error (arrays st) existing) as [xs|] eqn:Hr;
        [|contradiction].
      destruct (add_step st existing xs Hr) as (r' & st' & Hrun & _).
      unfold completion, bind. now rewrite Hrun.
Qed.

(** The helper on a one-element array when the variable is [true]: a new
    array is returned and the argument still has its one element. *)
Lemma readers_leave_store_witness :
  chromeInChromeMcpUsed
    (finalState (perform (AppendMarkerIfNeeded 0)) (mkState true [["beta-1"]])) =
  true /\
  nth_error
    (arrays (finalState (perform (AppendMarkerIfNeeded 0))
                        (mkState true [["beta-1"]]))) 0 =
  Some ["beta-1"].
Proof.
  destruct (readers_leave_store (AppendMarkerIfNeeded 0)
              (mkState true [["beta-1"]]) eq_refl) as (Hu & Hold & _).
  split.
  - exact Hu.
  - apply Hold. reflexivity.
Defined.

(** ** The repository's tests, replayed on the embedding *)

Example test_predicate :
  map isChromeInChromeMcpTool
      ["mcp__claude-in-chrome__navigate"; "mcp__claude-in-chrome__click";
       "mcp__filesystem__read"; "mcp__github__create_issue"; "Read"; "Bash"] =
  [true; true; false; false; false; false].
Proof. reflexivity. Qed.

Example test_hook_ignores_other_tools :
  finalState (forEach onToolExecuted ["Read"; "Bash"; "mcp__filesystem__read"])
             initialState = initialState.
Proof. reflexivity. Qed.

Example test_resume_scenario :
  returnedElements
    (onToolExecuted "mcp__claude-in-chrome__navigate" ;;
     savedState <- getSessionState ;;
     resetState ;;
     restoreSessionState savedState ;;
     addToLiteral []) initialState =
  Some ["browser-use-YYYYMMDD"].
Proof. reflexivity. Qed.

Example test_continue_scenario :
  returnedElements
    (savedState <- getSessionState ;;
     resetState ;;
     restoreSessionState savedState ;;
     addToLiteral ["existing-beta"]) initialState =
  Some ["existing-beta"] /\
  returnedElements
    (savedState <- getSessionState ;;
     resetState ;;
     restoreSessionState savedState ;;
     onToolExecuted "mcp__claude-in-chrome__click" ;;
     addToLiteral ["existing-beta"]) initialState =
  Some ["existing-beta"; "browser-use-YYYYMMDD"].
Proof. split; reflexivity. Qed.

Example test_restore_null_throws :
  restoreSessionState Null (mkState true []) = (Throw TypeError, mkState true []).
Proof. reflexivity. Qed.

(** ** Further properties: the two tool hooks *)

Lemma handleChromeInChromeMcpToolUse_run
    (toolName : string) (toolInput toolResult : Value) (st : State) :
  handleChromeInChromeMcpToolUse toolName toolInput toolResult st =
  (Normal tt,
   mkState (chromeInChromeMcpUsed st || isChromeInChromeMcpTool toolName)
           (arrays st)).
Proof.
  unfold handleChromeInChromeMcpToolUse.
  destruct (isChromeInChromeMcpTool toolName).
  - now rewrite orb_true_r.
  - unfold ret. now rewrite orb_false_r, state_eta.
Qed.

(** X1.  Any sequence of hook calls, through [onToolExecuted] or through
    [handleChromeInChromeMcpToolUse] with any tool input and result,
    completes normally; afterwards the variable is [true] exactly when it
    was [true] before or one of the tool names qualifies, and no array
    has been touched. *)
Theorem hooks_accumulate (calls : list HookCall) :
  forall st : State,
    forEach runHook calls st =
    (Normal tt,
     mkState (chromeInChromeMcpUsed st ||
              existsb (fun c => isChromeInChromeMcpTool (hookToolName c)) calls)
             (arrays st)).
Proof.
  induction calls as [|c calls IH]; intros st; simpl.
  - unfold ret. now rewrite orb_false_r, state_eta.
  - unfold bind.
    destruct c as [toolName | toolName toolInput toolResult]; simpl.
    + rewrite onToolExecuted_run, IH. simpl. now rewrite orb_assoc.
    + rewrite handleChromeInChromeMcpToolUse_run, IH. simpl.
      now rewrite orb_assoc.
Qed.

(** ** Further properties: restoring *)

Lemma restoreChromeMcpSessionState_agrees_object
    (fields : list (string * Value)) (st : State) :
  restoreChromeMcpSessionState (Object fields) st =
  (Normal tt,
   mkState (chromeInChromeMcpUsed st ||
            strictEqualsTrue (ownProperty fields "chromeInChromeMcpUsed"))
           (arrays st)).
Proof.
  unfold restoreChromeMcpSessionState, bind, getProperty, ret.
  now rewrite restoreSessionState_object.
Qed.

(** X2.  [restoreChromeMcpSessionState] behaves as [restoreSessionState]
    on every value: same completion, same store afterwards, the values on
    which the property access throws included. *)
Theorem restoreChromeMcpSessionState_agrees (savedState : Value) (st : State) :
  restoreChromeMcpSessionState savedState st =
  restoreSessionState savedState st.
Proof.
  destruct savedState as [| |b|n|s|fields]; reflexivity.
Qed.

(** X3.  What [restoreSessionState] does with an argument that is no
    object: on [null] and on [undefined] it throws a [TypeError] and the
    store is as before; on a boolean, a number or a string it completes
    normally and the store is as before. *)
Theorem restoreSessionState_non_object (state : Value) (st : State) :
  (forall fields, state <> Object fields) ->
  finalState (restoreSessionState state) st = st /\
  (state = Null \/ state = Undefined ->
   completion (restoreSessionState state) st = Throw TypeError) /\
  (state <> Null -> state <> Undefined ->
   completion (restoreSessionState state) st = Normal tt).
Proof.
  intros Hobj. unfold finalState, completion.
  destruct state as [| |b|n|s|fields];
    try (now elim (Hobj fields));
    (repeat apply conj;
     [ reflexivity
     | intros [H | H]; (reflexivity || discriminate H)
     | intros Hn Hu; (reflexivity || congruence) ]).
Qed.

Lemma restoreSessionState_non_object_witness :
  completion (restoreSessionState Null) (mkState true []) = Throw TypeError /\
  finalState (restoreSessionState Null) (mkState true []) = mkState true [] /\
  completion (restoreSessionState (Str "true")) initialState = Normal tt /\
  finalState (restoreSessionState (Str "true")) initialState = initialState.
Proof.
  assert (Hnull : forall fields, Null <> Object fields) by discriminate.
  assert (Hstr : forall fields, Str "true" <> Object fields) by discriminate.
  destruct (restoreSessionState_non_object Null (mkState true []) Hnull)
    as (Hst & Hthrow & _).
  destruct (restoreSessionState_non_object (Str "true") initialState Hstr)
    as (Hst' & _ & Hnormal).
  repeat apply conj.
  - apply Hthrow. now left.
  - exact Hst.
  - apply Hnormal; discriminate.
  - exact Hst'.
Defined.

(** X4.  A session document that carries, under the key
    [CHROME_MCP_SESSION_STATE_KEY], the property of the record
    [getChromeMcpSessionState] returned restores the variable to the
    value it had when the record was taken, whatever else the document
    holds: after a reset, [restoreChromeMcpSessionState] on the document
    and then [hasChromeInChromeMcpBeenUsed] returns that value. *)
Theorem session_document_round_trip
    (st : State) (saved document : list (string * Value)) :
  completion getChromeMcpSessionState st = Normal (Object saved) ->
  ownProperty document CHROME_MCP_SESSION_STATE_KEY =
  ownProperty saved CHROME_MCP_SESSION_STATE_KEY ->
  completion (resumeFrom (Object document)) st =
  Normal (chromeInChromeMcpUsed st) /\
  chromeInChromeMcpUsed (finalState (resumeFrom (Object document)) st) =
  chromeInChromeMcpUsed st.
Proof.
  intros Hsaved Hdoc.
  unfold completion, getChromeMcpSessionState, getSessionState, bind,
    readUsed, ret in Hsaved. simpl in Hsaved.
  injection Hsaved as <-. simpl in Hdoc.
  unfold completion, finalState, resumeFrom, bind, resetState, writeUsed.
  rewrite restoreChromeMcpSessionState_agrees_object.
  unfold CHROME_MCP_SESSION_STATE_KEY in Hdoc. simpl. rewrite Hdoc. simpl.
  destruct (chromeInChromeMcpUsed st); split; reflexivity.
Qed.

Lemma session_document_round_trip_witness :
  completion
    (resumeFrom (Object [("model", Str "opus");
                         ("chromeInChromeMcpUsed", Boolean true);
                         ("turns", Number 12)]))
    (mkState true [["beta-1"]]) = Normal true.
Proof.
  apply (session_document_round_trip
           (mkState true [["beta-1"]])
           [("chromeInChromeMcpUsed", Boolean true)]
           [("model", Str "opus");
            ("chromeInChromeMcpUsed", Boolean true);
            ("turns", Number 12)]).
  - reflexivity.
  - reflexivity.
Defined.

(** X5.  Restoring is a merge: restoring from two objects gives the same
    store in either order, and restoring from one object twice gives the
    same store as restoring from it once. *)
Theorem restoreSessionState_merge_laws
    (f g : list (string * Value)) (st : State) :
  (restoreSessionState (Object f) ;; restoreSessionState (Object g)) st =
  (restoreSessionState (Object g) ;; restoreSessionState (Object f)) st /\
  (restoreSessionState (Object f) ;; restoreSessionState (Object f)) st =
  restoreSessionState (Object f) st.
Proof.
  unfold bind. rewrite !restoreSessionState_object. simpl.
  rewrite ?restoreSessionState_object. simpl.
  split; f_equal; f_equal.
  - rewrite <- !orb_assoc. f_equal. apply orb_comm.
  - rewrite <- orb_assoc. now rewrite orb_diag.
Qed.

(** ** Further properties: the header helper and the request example *)

(** X6.  On a reference to an array with elements [xs]: when the variable
    is [false] or the marker is among [xs], the helper returns the very
    reference it was given and the store is as before; when the variable
    is [true] and the marker is not among [xs], it returns a reference
    that did not exist before, different from its argument, and the store
    has grown by the one new array. *)
Theorem addChromeMcpBetaHeaderIfNeeded_aliasing
    (st : State) (r : Ref) (xs : list string) :
  nth_error (arrays st) r = Some xs ->
  (chromeInChromeMcpUsed st = false \/
   In CHROME_IN_CHROME_MCP_BETA_HEADER xs ->
   addChromeMcpBetaHeaderIfNeeded r st = (Normal r, st)) /\
  (chromeInChromeMcpUsed st = true ->
   ~ In CHROME_IN_CHROME_MCP_BETA_HEADER xs ->
   exists r' : Ref,
     completion (addChromeMcpBetaHeaderIfNeeded r) st = Normal r' /\
     r' <> r /\
     nth_error (arrays st) r' = None /\
     arrays (finalState (addChromeMcpBetaHeaderIfNeeded r) st) =
     arrays st ++ [xs ++ [CHROME_IN_CHROME_MCP_BETA_HEADER]]).
Proof.
  intros Hr. split.
  - intros Hcase. destruct (chromeInChromeMcpUsed st) eqn:Hu.
    + destruct Hcase as [Hf | Hin]; [discriminate Hf|].
      apply includes_iff_In in Hin. now apply (add_present st r xs).
    + now apply add_unused.
  - intros Hu Hin. apply includes_false_iff in Hin.
    exists (List.length (arrays st)).
    unfold completion, finalState. rewrite (add_absent st r xs Hu Hr Hin).
    simpl. repeat apply conj; try reflexivity.
    + assert (r < List.length (arrays st))
        by (apply nth_error_Some; congruence).
      lia.
    + apply nth_error_None. apply Nat.le_refl.
Qed.

Lemma addChromeMcpBetaHeaderIfNeeded_aliasing_witness :
  addChromeMcpBetaHeaderIfNeeded 0
    (mkState true [["beta-1"; "browser-use-YYYYMMDD"]]) =
  (Normal 0, mkState true [["beta-1"; "browser-use-YYYYMMDD"]]) /\
  exists r' : Ref,
    completion (addChromeMcpBetaHeaderIfNeeded 0) (mkState true [["beta-1"]]) =
    Normal r' /\
    r' <> 0 /\
    nth_error [["beta-1"]] r' = None /\
    arrays (finalState (addChromeMcpBetaHeaderIfNeeded 0)
                       (mkState true [["beta-1"]])) =
    [["beta-1"]] ++ [["beta-1"] ++ ["browser-use-YYYYMMDD"]].
Proof.
  split.
  - apply (proj1 (addChromeMcpBetaHeaderIfNeeded_aliasing
                    (mkState true [["beta-1"; "browser-use-YYYYMMDD"]]) 0
                    ["beta-1"; "browser-use-YYYYMMDD"] eq_refl)).
    right. simpl. right. left. reflexivity.
  - apply (proj2 (addChromeMcpBetaHeaderIfNeeded_aliasing
                    (mkState true [["beta-1"]]) 0 ["beta-1"] eq_refl)).
    + reflexivity.
    + simpl. intros [H | []]. discriminate H.
Defined.

Lemma bind_run {A B} (m : M A) (k : A -> M B) (st st' : State) (a : A) :
  m st = (Normal a, st') -> (x <- m ;; k x) st = k a st'.
Proof. intros Hm. unfold bind. now rewrite Hm. Qed.

Lemma join_run (st : State) (r : Ref) (xs : list string) (sep : string) :
  nth_error (arrays st) r = Some xs ->
  join r sep st = (Normal (String.concat sep xs), st).
Proof.
  intros Hr. unfold join, bind, readArray, ret. now rewrite Hr.
Qed.

(** X7.  [buildApiRequestExample] completes normally in every state.  The
    object it returns has ["anthropic-version"] equal to ["2024-06-01"]
    and ["anthropic-beta"] equal to the marker when the variable is
    [true] and to the empty string when it is [false].  The variable and
    the arrays that existed are as before. *)
Theorem buildApiRequestExample_spec (st : State) :
  completion buildApiRequestExample st =
  Normal (Object [("anthropic-version", Str "2024-06-01");
                  ("anthropic-beta",
                   Str (if chromeInChromeMcpUsed st
                        then CHROME_IN_CHROME_MCP_BETA_HEADER
                        else ""))]) /\
  chromeInChromeMcpUsed (finalState buildApiRequestExample st) =
  chromeInChromeMcpUsed st /\
  (forall (l : Ref) (zs : list string),
      nth_error (arrays st) l = Some zs ->
      nth_error (arrays (finalState buildApiRequestExample st)) l = Some zs).
Proof.
  unfold completion, finalState, buildApiRequestExample.
  rewrite (bind_run (newArray []) _ st
             (mkState (chromeInChromeMcpUsed st) (arrays st ++ [[]]))
             (List.length (arrays st)) eq_refl).
  set (st1 := mkState (chromeInChromeMcpUsed st) (arrays st ++ [[]])).
  assert (Hr : nth_error (arrays st1) (List.length (arrays st)) = Some [])
    by apply nth_error_snoc.
  assert (Hkeep : forall l zs, nth_error (arrays st) l = Some zs ->
                               nth_error (arrays st ++ [[]]) l = Some zs).
  { intros l zs Hl. rewrite nth_error_app1; [assumption|].
    apply nth_error_Some. congruence. }
  destruct (chromeInChromeMcpUsed st) eqn:Hu.
  - rewrite (bind_run _ _ st1 _ _ (add_absent st1 _ [] eq_refl Hr eq_refl)).
    rewrite (bind_run _ _ _ _ _
               (join_run
                  (mkState true
                     (arrays st1 ++ [[CHROME_IN_CHROME_MCP_BETA_HEADER]]))
                  (List.length (arrays st1))
                  [CHROME_IN_CHROME_MCP_BETA_HEADER] ","
                  (nth_error_snoc _ _))).
    simpl. repeat apply conj; try reflexivity.
    intros l zs Hl. rewrite nth_error_app1.
    + now apply Hkeep.
    + apply nth_error_Some. rewrite (Hkeep l zs Hl). discriminate.
  - rewrite (bind_run _ _ st1 _ _ (add_unused st1 _ eq_refl)).
    rewrite (bind_run _ _ _ _ _ (join_run st1 _ [] "," Hr)).
    simpl. repeat apply conj; try reflexivity. exact Hkeep.
Qed.

(** ** Further properties: sequences of operations *)

Lemma perform_keeps_true (op : Operation) (st : State) :
  isReset op = false ->
  chromeInChromeMcpUsed st = true ->
  chromeInChromeMcpUsed (finalState (perform op) st) = true.
Proof.
  intros Hop Hu.
  destruct op as [name| | | | |state| |existing|toolName];
    try discriminate Hop; simpl perform; rewrite ?perform_bind_ret;
    try exact Hu.
  - reflexivity.
  - unfold finalState. now rewrite getChromeInChromeMcpBetaHeader_run.
  - now apply restoreSessionState_keeps_true.
  - now rewrite (proj1 (add_frame st existing)).
  - unfold finalState. rewrite onToolExecuted_run. simpl. now rewrite Hu.
Qed.

Lemma finalState_forEach_cons {A} (f : A -> M unit) (x : A) (xs : list A)
    (st : State) :
  finalState (forEach f (x :: xs)) st =
  match completion (f x) st with
  | Normal _ => finalState (forEach f xs) (finalState (f x) st)
  | Throw _ => finalState (f x) st
  end.
Proof.
  unfold finalState, completion. simpl. unfold bind.
  destruct (f x st) as [[u|e] st']; reflexivity.
Qed.

(** X8.  Once the variable is [true], no sequence of operations without
    a [resetState] among them makes it [false], whether every call
    completes or one of them throws and ends the sequence. *)
Theorem used_survives_sequences (ops : list Operation) :
  forall st : State,
    forallb (fun op => negb (isReset op)) ops = true ->
    chromeInChromeMcpUsed st = true ->
    chromeInChromeMcpUsed (finalState (forEach perform ops) st) = true.
Proof.
  induction ops as [|op ops IH]; intros st Hops Hu.
  - exact Hu.
  - simpl in Hops. apply andb_true_iff in Hops. destruct Hops as [Hop Hops].
    apply negb_true_iff in Hop.
    pose proof (perform_keeps_true op st Hop Hu) as Hstep.
    rewrite finalState_forEach_cons.
    destruct (completion (perform op) st); [now apply IH | exact Hstep].
Qed.

Lemma used_survives_sequences_witness :
  chromeInChromeMcpUsed
    (finalState
       (forEach perform
          [ImportState (Object [("chromeInChromeMcpUsed", Boolean false)]);
           OnToolExecuted "Read";
           AppendMarkerIfNeeded 0;
           ImportState Null;
           MarkUsed])
       (mkState true [["beta-1"]])) = true.
Proof.
  apply used_survives_sequences; reflexivity.
Defined.

Lemma perform_sets_only_by_setter (op : Operation) (st : State) :
  chromeInChromeMcpUsed (finalState (perform op) st) = true ->
  chromeInChromeMcpUsed st = true \/ maySet op = true.
Proof.
  destruct op as [name| | | | |state| |existing|toolName];
    simpl perform; rewrite ?perform_bind_ret; simpl maySet;
    try (intros H; left; exact H); try (intros _; now right).
  - unfold finalState. rewrite getChromeInChromeMcpBetaHeader_run. now left.
  - destruct state as [| |b|n|s|fields]; try (intros H; left; exact H).
    unfold finalState. rewrite restoreSessionState_object. simpl.
    intros H. now apply orb_true_iff in H.
  - intros H. discriminate H.
  - rewrite (proj1 (add_frame st existing)). now left.
  - unfold finalState. rewrite onToolExecuted_run. simpl.
    intros H. now apply orb_true_iff in H.
Qed.

(** X9.  The variable is never set by accident: if it is [true] after a
    sequence of operations, it was [true] before or the sequence holds a
    call that sets it ([markChromeInChromeMcpToolUsed], the hook on a
    qualifying name, or a restore from an object whose property is
    [true]). *)
Theorem used_set_only_by_setters (ops : list Operation) :
  forall st : State,
    chromeInChromeMcpUsed (finalState (forEach perform ops) st) = true ->
    chromeInChromeMcpUsed st = true \/ existsb maySet ops = true.
Proof.
  induction ops as [|op ops IH]; intros st Hend.
  - now left.
  - rewrite finalState_forEach_cons in Hend. simpl.
    assert (Hstep : chromeInChromeMcpUsed (finalState (perform op) st) = true ->
                    chromeInChromeMcpUsed st = true \/
                    maySet op || existsb maySet ops = true).
    { intros H. destruct (perform_sets_only_by_setter op st H) as [|Hs];
        [now left | right; now rewrite Hs]. }
    destruct (completion (perform op) st); [|now apply Hstep].
    destruct (IH _ Hend) as [H | H].
    + now apply Hstep.
    + right. rewrite H. apply orb_true_r.
Qed.

Lemma used_set_only_by_setters_witness :
  chromeInChromeMcpUsed initialState = true \/
  existsb maySet
    [OnToolExecuted "Bash";
     ImportState (Object [("chromeInChromeMcpUsed", Str "true")]);
     OnToolExecuted "mcp__claude-in-chrome__click";
     Reset;
     ImportState (Object [("chromeInChromeMcpUsed", Boolean true)])] = true.
Proof.
  apply used_set_only_by_setters. reflexivity.
Defined.

(** ** Further properties: tool names *)

Lemma append_assoc_string (a b c : string) :
  ((a ++ b) ++ c = a ++ (b ++ c))%string.
Proof.
  induction a as [|x a IH]; simpl; [reflexivity | now rewrite IH].
Qed.

Lemma length_append_string (a b : string) :
  String.length (a ++ b)%string = String.length a + String.length b.
Proof.
  induction a as [|x a IH]; simpl; [reflexivity | now rewrite IH].
Qed.

(** X10.  A qualifying tool name has at least 23 characters, and every
    string that extends a qualifying name qualifies. *)
Theorem qualifying_names_extend (s : string) :
  isChromeInChromeMcpTool s = true ->
  23 <= String.length s /\
  (forall t : string, isChromeInChromeMcpTool (s ++ t)%string = true).
Proof.
  unfold isChromeInChromeMcpTool, startsWith. intros Hs.
  apply prefix_iff_append in Hs. destruct Hs as [suffix ->]. split.
  - rewrite length_append_string. simpl. lia.
  - intros t. apply prefix_iff_append. exists (suffix ++ t)%string.
    apply append_assoc_string.
Qed.

Lemma qualifying_names_extend_witness :
  23 <= String.length "mcp__claude-in-chrome__tabs" /\
  isChromeInChromeMcpTool ("mcp__claude-in-chrome__tabs" ++ "_create")%string =
  true.
Proof.
  destruct (qualifying_names_extend "mcp__claude-in-chrome__tabs" eq_refl)
    as [Hlen Hext].
  split; [exact Hlen | exact (Hext "_create")].
Defined.

Lemma noUnderscore_cons (c : ascii) (s : string) :
  noUnderscore (String c s) = true -> c <> "_"%char /\ noUnderscore s = true.
Proof.
  simpl. intros H. apply andb_true_iff in H. destruct H as [Hc Hs].
  split; [|exact Hs].
  apply negb_true_iff in Hc. now apply Ascii.eqb_neq in Hc.
Qed.

Lemma prefix_same_head (c : ascii) (s1 s2 : string) :
  String.prefix (String c s1) (String c s2) = String.prefix s1 s2.
Proof.
  simpl. destruct (ascii_dec c c); [reflexivity | congruence].
Qed.

Lemma prefix_other_head (c d : ascii) (s1 s2 : string) :
  c <> d -> String.prefix (String c s1) (String d s2) = false.
Proof.
  intros Hcd. simpl. destruct (ascii_dec c d); [contradiction | reflexivity].
Qed.

(** Two names without underscore, each followed by a double underscore:
    one is a prefix of the other only when the names are equal. *)
Lemma prefix_up_to_separator (a : string) :
  forall (b t : string),
    noUnderscore a = true -> noUnderscore b = true ->
    (String.prefix (a ++ "__") (b ++ "__" ++ t) = true <-> a = b).
Proof.
  induction a as [|c a IH]; intros b t Ha Hb.
  - destruct b as [|d b].
    + split; [reflexivity | intros _].
      apply prefix_iff_append. now exists t.
    + apply noUnderscore_cons in Hb. destruct Hb as [Hd _].
      change (String.prefix (String "_" "_") (String d (b ++ "__" ++ t)) = true
              <-> "" = String d b).
      rewrite prefix_other_head by congruence.
      split; intros H; discriminate H.
  - apply noUnderscore_cons in Ha. destruct Ha as [Hc Ha].
    destruct b as [|d b].
    + change (String.prefix (String c (a ++ "__")) (String "_" (String "_" t))
              = true <-> String c a = "").
      rewrite prefix_other_head by exact Hc.
      split; intros H; discriminate H.
    + apply noUnderscore_cons in Hb. destruct Hb as [_ Hb].
      change (String.prefix (String c (a ++ "__")) (String d (b ++ "__" ++ t))
              = true <-> String c a = String d b).
      destruct (ascii_dec c d) as [->|E].
      * rewrite prefix_same_head, (IH b t Ha Hb).
        split; intros H; congruence.
      * rewrite prefix_other_head by exact E.
        split; [intros H; discriminate H | intros H; congruence].
Qed.

(** X11.  For a server name without underscore, a tool name of the form
    [mcp__<server>__<tool>] qualifies exactly when the server is
    [CLAUDE_IN_CHROME_MCP_SERVER_NAME], whatever the tool. *)
Theorem only_the_chrome_server_qualifies (server tool : string) :
  noUnderscore server = true ->
  (isChromeInChromeMcpTool (mcpToolName server tool) = true <->
   server = CLAUDE_IN_CHROME_MCP_SERVER_NAME).
Proof.
  intros Hs. unfold isChromeInChromeMcpTool, startsWith, mcpToolName.
  change (String.prefix CHROME_MCP_TOOL_PREFIX
            ("mcp__" ++ server ++ "__" ++ tool))
    with (String.prefix (CLAUDE_IN_CHROME_MCP_SERVER_NAME ++ "__")
            (server ++ "__" ++ tool)).
  rewrite (prefix_up_to_separator CLAUDE_IN_CHROME_MCP_SERVER_NAME
             server tool eq_refl Hs).
  split; intros H; congruence.
Qed.

Lemma only_the_chrome_server_qualifies_witness :
  isChromeInChromeMcpTool (mcpToolName "claude-in-chrome-beta" "navigate") =
  true <->
  "claude-in-chrome-beta" = CLAUDE_IN_CHROME_MCP_SERVER_NAME.
Proof.
  apply only_the_chrome_server_qualifies. reflexivity.
Defined.

(** The hypothesis on the server name is needed: a server whose name is
    the chrome server's followed by an underscore passes the test. *)
Example underscore_server_qualifies :
  isChromeInChromeMcpTool (mcpToolName "claude-in-chrome_" "navigate") = true.
Proof. reflexivity. Qed.

(** ** Further properties: the saved record *)

